(** * RoR-Ts: a model of [src/index.ts]

    The TypeScript sample declares a few top-level values, the function
    [calculateTax], and the class [Point] with its constructor and the two
    methods [draw] and [getDistance].  This development embeds that code in
    Rocq and settles the properties claimed about it.

    Numbers are IEEE-754 binary64 values (Rocq's primitive floats), exactly
    as a JavaScript engine has them.  Objects live in a heap indexed by
    references, and the console is the list of the texts written so far, one
    entry for each call of console.log. *)

From Stdlib Require Import ZArith String Ascii List DecimalString.
From Stdlib Require Import PrimFloat FloatOps SpecFloat FloatAxioms.
From stdpp Require Import gmap strings.

Set Warnings "-inexact-float".

Local Open Scope string_scope.
Local Open Scope list_scope.
Local Open Scope Z_scope.

(** ** Number::toString (ECMA-262, 6.1.6.1.20, radix 10)

    String concatenation in [draw] converts the coordinates with this
    operation, so it is modelled in full: the shortest decimal digit string
    that reads back as the same binary64 value, laid out in positional or
    exponent notation by the magnitude of the number. *)

Module Number.

(** A positive finite binary64 value is [m * 2^e]; its rounding interval
    is kept in quarter-ulp units, i.e. as multiples of [2^(e-2)]. *)
Record interval := {
  mid : Z;           (* the value itself: 4m *)
  lo : Z;            (* midpoint to the predecessor *)
  hi : Z;            (* midpoint to the successor *)
  closed : bool;     (* ties go to an even mantissa *)
  exp2 : Z           (* the unit is 2^exp2 *)
}.

Definition rounding_interval (m : positive) (e : Z) : interval :=
  let m := Z.pos m in
  {| mid := 4 * m;
     lo := if (m =? 2 ^ 52) && (-1074 <? e) then 4 * m - 1 else 4 * m - 2;
     hi := 4 * m + 2;
     closed := Z.even m;
     exp2 := e - 2 |}.

(** Scale factors that clear the denominators when a decimal [s * 10^q]
    is compared with a binary [z * 2^exp2]. *)
Definition bin_scale (i : interval) (q : Z) : Z :=
  2 ^ Z.max (exp2 i) 0 * 10 ^ Z.max (- q) 0.

Definition dec_scale (i : interval) (q : Z) : Z :=
  10 ^ Z.max q 0 * 2 ^ Z.max (- exp2 i) 0.

(** [10^p <= x] *)
Definition le_pow10 (i : interval) (p : Z) : bool :=
  dec_scale i p <=? mid i * bin_scale i p.

Fixpoint log10_down (fuel : nat) (i : interval) (p : Z) : Z :=
  match fuel with
  | O => p
  | S fuel => if le_pow10 i p then p else log10_down fuel i (p - 1)
  end.

Fixpoint log10_up (fuel : nat) (i : interval) (p : Z) : Z :=
  match fuel with
  | O => p
  | S fuel => if le_pow10 i (p + 1) then log10_up fuel i (p + 1) else p
  end.

(** [floor (log10 x)], from the binary logarithm and two exact checks. *)
Definition floor_log10 (i : interval) : Z :=
  let estimate := (Z.log2 (mid i) + exp2 i) * 30103 / 100000 in
  log10_up 4 i (log10_down 4 i estimate).

(** Does [s * 10^q] round to the value of the interval? *)
Definition reads_back (i : interval) (s q : Z) : bool :=
  let v := s * dec_scale i q in
  let l := lo i * bin_scale i q in
  let h := hi i * bin_scale i q in
  if closed i then (l <=? v) && (v <=? h) else (l <? v) && (v <? h).

Definition distance (i : interval) (s q : Z) : Z :=
  Z.abs (s * dec_scale i q - mid i * bin_scale i q).

(** The candidates with [k] digits are the two multiples of [10^q] around
    the value; of those that read back, the closer one is taken, the even
    one on a tie. *)
Definition candidate (i : interval) (q : Z) : option Z :=
  let below := mid i * bin_scale i q / dec_scale i q in
  let above := below + 1 in
  match reads_back i below q, reads_back i above q with
  | false, false => None
  | true, false => Some below
  | false, true => Some above
  | true, true =>
      match distance i below q ?= distance i above q with
      | Lt => Some below
      | Gt => Some above
      | Eq => Some (if Z.even below then below else above)
      end
  end.

(** Smallest number of digits first; seventeen always suffice. *)
Fixpoint shortest (fuel : nat) (i : interval) (q : Z) : Z * Z :=
  match fuel with
  | O => (mid i * bin_scale i q / dec_scale i q, q)
  | S fuel =>
      match candidate i q with
      | Some s => (s, q)
      | None => shortest fuel i (q - 1)
      end
  end.

Definition decimal (z : Z) : string :=
  NilZero.string_of_uint (N.to_uint (Z.to_N z)).

Fixpoint strip_zeros_rev (s : list ascii) : list ascii :=
  match s with
  | "0"%char :: rest => strip_zeros_rev rest
  | _ => s
  end.

Definition strip_zeros (s : string) : string :=
  string_of_list_ascii
    (rev (strip_zeros_rev (rev (list_ascii_of_string s)))).

Fixpoint zeros (n : nat) : string :=
  match n with
  | O => ""
  | S n => String "0" (zeros n)
  end.

(** Steps 5 to 12: the digits [ds] of [s] (there are [k] of them) and the
    position [n] of the decimal point. *)
Definition layout (ds : string) (n : Z) : string :=
  let k := Z.of_nat (String.length ds) in
  if (-5 <=? n) && (n <=? 21) then
    if k <=? n then ds +:+ zeros (Z.to_nat (n - k))
    else if 0 <? n then
      substring 0 (Z.to_nat n) ds +:+ "." +:+
      substring (Z.to_nat n) (Z.to_nat (k - n)) ds
    else "0." +:+ zeros (Z.to_nat (- n)) +:+ ds
  else
    let sign := if n - 1 <? 0 then "-" else "+" in
    let mantissa :=
      if k =? 1 then ds
      else substring 0 1 ds +:+ "." +:+ substring 1 (Z.to_nat (k - 1)) ds in
    mantissa +:+ "e" +:+ sign +:+ decimal (Z.abs (n - 1)).

Definition positive_finite (m : positive) (e : Z) : string :=
  let i := rounding_interval m e in
  let '(s, q) := shortest 17 i (floor_log10 i) in
  let all := decimal s in
  layout (strip_zeros all) (Z.of_nat (String.length all) + q).

Definition toString (x : float) : string :=
  match Prim2SF x with
  | S754_nan => "NaN"
  | S754_zero _ => "0"
  | S754_infinity false => "Infinity"
  | S754_infinity true => "-Infinity"
  | S754_finite false m e => positive_finite m e
  | S754_finite true m e => "-" +:+ positive_finite m e
  end.

End Number.

(** ** Values

    The part of the JavaScript value space the sample reaches: coordinates are
    numbers or [undefined] (an omitted optional parameter), and [draw] builds
    a string. *)

Inductive value :=
| VUndefined
| VNumber (n : float)
| VString (s : string).

(** ToString (ECMA-262, 7.1.17) *)
Definition ToString (v : value) : string :=
  match v with
  | VUndefined => "undefined"
  | VNumber n => Number.toString n
  | VString s => s
  end.

(** The [+] operator (ECMA-262, 13.15.3): concatenation as soon as one
    operand is a string, addition of numbers otherwise.  ToNumber sends
    [undefined] to NaN, and NaN absorbs the sum. *)
Definition add (l r : value) : value :=
  match l, r with
  | VString _, _ | _, VString _ => VString (ToString l +:+ ToString r)
  | VNumber a, VNumber b => VNumber (a + b)%float
  | _, _ => VNumber nan
  end.

Infix "⊕" := add (at level 50, left associativity).

(** The [===] operator (ECMA-262, 7.2.16): no coercion between types;
    numbers compare as IEEE-754 does, so NaN differs from itself. *)
Definition strict_equals (l r : value) : bool :=
  match l, r with
  | VUndefined, VUndefined => true
  | VNumber a, VNumber b => (a =? b)%float
  | VString a, VString b => String.eqb a b
  | _, _ => false
  end.

(** ** The store: a heap of [Point] objects and the console *)

Definition ref := positive.

(** class Point { x: number; y: number; ... } *)
Record Point := { x : value; y : value }.

Record state := {
  heap : gmap ref Point;
  console : list string
}.

Definition init : state := {| heap := ∅; console := [] |}.

(** A call either completes normally with a value or throws; a thrown error
    is identified by its name. *)
Inductive completion (A : Type) :=
| Normal (a : A)
| Throw (error : string).

Arguments Normal {A} a.
Arguments Throw {A} error.

Definition M (A : Type) : Type := state → completion A * state.

#[global] Instance M_ret : MRet M := λ A a σ, (Normal a, σ).

#[global] Instance M_bind : MBind M := λ A B f m σ,
  match m σ with
  | (Normal a, σ') => f a σ'
  | (Throw e, σ') => (Throw e, σ')
  end.

(** Object creation: a reference no live object has. *)
Definition alloc (p : Point) : M ref := λ σ,
  let r := fresh (dom (heap σ)) in
  (Normal r, {| heap := <[r := p]> (heap σ); console := console σ |}).

(** Property access through a reference that designates no object is the
    TypeError of reading or writing a property of [undefined]. *)
Definition get_x (this : ref) : M value := λ σ,
  match heap σ !! this with
  | Some p => (Normal (x p), σ)
  | None => (Throw "TypeError", σ)
  end.

Definition get_y (this : ref) : M value := λ σ,
  match heap σ !! this with
  | Some p => (Normal (y p), σ)
  | None => (Throw "TypeError", σ)
  end.

Definition set_x (this : ref) (v : value) : M unit := λ σ,
  match heap σ !! this with
  | Some p =>
      (Normal (), {| heap := <[this := {| x := v; y := y p |}]> (heap σ);
                     console := console σ |})
  | None => (Throw "TypeError", σ)
  end.

Definition set_y (this : ref) (v : value) : M unit := λ σ,
  match heap σ !! this with
  | Some p =>
      (Normal (), {| heap := <[this := {| x := x p; y := v |}]> (heap σ);
                     console := console σ |})
  | None => (Throw "TypeError", σ)
  end.

(** console.log with one argument: a string is written as it is, any other
    value as the console displays it (negative zero keeps its sign there). *)
Definition display (v : value) : string :=
  match v with
  | VNumber n =>
      match Prim2SF n with
      | S754_zero true => "-0"
      | _ => Number.toString n
      end
  | _ => ToString v
  end.

Definition console_log (v : value) : M value := λ σ,
  (Normal VUndefined,
   {| heap := heap σ; console := console σ ++ [display v] |}).

(** An argument list read by position: a missing argument is [undefined]. *)
Definition arg (args : list value) (i : nat) : value := nth i args VUndefined.

(** ** The sample *)

(** const enum Size { Small = 1, Medium = 2, Large = 3 } *)
Inductive Size := Small | Medium | Large.

Definition Size_value (s : Size) : float :=
  match s with
  | Small => 1
  | Medium => 2
  | Large => 3
  end.

Definition mySize : Size := Medium.

(** function calculateTax(income: number, taxYear = 2022): number {
      if (taxYear < 2022) return income * 1.2;
      return income * 1.3;
    }
    The default initialiser applies when the argument is omitted (or is
    [undefined]): [None] below. *)
Definition calculateTax (income : float) (taxYear : option float) : float :=
  let taxYear := default 2022%float taxYear in
  if (taxYear <? 2022)%float then (income * 1.2)%float
  else (income * 1.3)%float.

(** constructor(x?: number, y?: number) { this.x = x; this.y = y; } *)
Definition constructor (this : ref) (x y : value) : M unit :=
  set_x this x;;
  set_y this y.

(** new Point(...args) *)
Definition new_Point (args : list value) : M ref :=
  this ← alloc {| x := VUndefined; y := VUndefined |};
  constructor this (arg args 0) (arg args 1);;
  mret this.

(** draw() { console.log('X: ' + this.x + ', Y: ' + this.y); } *)
Definition draw (this : ref) : M value :=
  x ← get_x this;
  y ← get_y this;
  console_log (VString "X: " ⊕ x ⊕ VString ", Y: " ⊕ y);;
  mret VUndefined.

(** getDistance(another: Point) { // ... }
    The body is empty: the call completes with [undefined]. *)
Definition getDistance (this another : ref) : M value :=
  mret VUndefined.

(** The statements of the script that have an effect:
    console.log(mySize); let point = new Point(1, 2); point.draw(); *)
Definition main : M value :=
  console_log (VNumber (Size_value mySize));;
  point ← new_Point [VNumber 1; VNumber 2];
  draw point.

(** ** Client programs

    The properties below are about what a caller observes, so they are
    stated on small programs built from the sample's operations. *)

(** new Point(...args).draw() *)
Definition rendering (args : list value) : M value :=
  p ← new_Point args;
  draw p.

(** new Point(...a).getDistance(new Point(...b)) *)
Definition distance_between (a b : list value) : M value :=
  p1 ← new_Point a;
  p2 ← new_Point b;
  getDistance p1 p2.

(** let p = new Point(...a); p.getDistance(p) *)
Definition self_distance (a : list value) : M value :=
  p ← new_Point a;
  getDistance p p.


Definition is_number (v : value) : bool :=
  match v with
  | VNumber _ => true
  | _ => false
  end.

(** Both coordinates hold a number. *)
Definition fully_specified (p : Point) : bool :=
  is_number (x p) && is_number (y p).

(** The distance the specification asks for, in the words of its output
    contract: [sqrt((x1-x2)^2 + (y1-y2)^2)]. *)
Definition spec_distance (x1 y1 x2 y2 : float) : float :=
  sqrt ((x1 - x2) * (x1 - x2) + (y1 - y2) * (y1 - y2))%float.

(** The state a constructor call leaves: one more object, at a reference
    that was free, holding the arguments. *)
Definition constructed (args : list value) (σ : state) : state :=
  {| heap := <[fresh (dom (heap σ)) := {| x := arg args 0; y := arg args 1 |}]>
               (heap σ);
     console := console σ |}.

(** The heap after [new Point(1, 2)] and [new Point(4, 6)], at the
    references 1 and 2. *)
Definition two_points : state :=
  snd ((new_Point [VNumber 1; VNumber 2];;
        new_Point [VNumber 4; VNumber 6]) init).

(** let p1 = new Point(...a); let p2 = new Point(...b);
    p1.draw(); p2.draw() *)
Definition draw_both (a b : list value) : M value :=
  p1 ← new_Point a;
  p2 ← new_Point b;
  draw p1;;
  draw p2.

(** this.draw(); this.getDistance(another); this.draw() *)
Definition draw_around_distance (this another : ref) : M value :=
  draw this;;
  getDistance this another;;
  draw this.

(** The line [draw] writes for a point. *)
Definition drawn (p : Point) : string :=
  "X: " +:+ ToString (x p) +:+ ", Y: " +:+ ToString (y p).

(** ** Running the operations *)

Lemma bind_run {A B} (m : M A) (f : A → M B) (σ : state) :
  (m ≫= f) σ =
  match m σ with
  | (Normal a, σ') => f a σ'
  | (Throw e, σ') => (Throw e, σ')
  end.
Proof. reflexivity. Qed.

Lemma ret_run {A} (a : A) (σ : state) : mret (M := M) a σ = (Normal a, σ).
Proof. reflexivity. Qed.

Lemma append_assoc (a b c : string) : (a +:+ b) +:+ c = a +:+ (b +:+ c).
Proof.
  induction a as [|ch a IH]; [reflexivity |].
  exact (f_equal (String ch) IH).
Qed.

(** Concatenation on the left of any value converts it with ToString. *)
Lemma add_string_l (s : string) (v : value) :
  VString s ⊕ v = VString (s +:+ ToString v).
Proof. now destruct v. Qed.

Lemma draw_text (vx vy : value) :
  display (VString "X: " ⊕ vx ⊕ VString ", Y: " ⊕ vy) =
  "X: " +:+ ToString vx +:+ ", Y: " +:+ ToString vy.
Proof.
  rewrite !add_string_l. cbn [display ToString].
  now rewrite !append_assoc.
Qed.

Lemma fresh_ref_free (σ : state) : heap σ !! fresh (dom (heap σ)) = None.
Proof. apply not_elem_of_dom, is_fresh. Qed.

Lemma new_Point_run (args : list value) (σ : state) :
  new_Point args σ = (Normal (fresh (dom (heap σ))), constructed args σ).
Proof.
  unfold new_Point, constructor, constructed.
  rewrite bind_run. unfold alloc. cbn [heap console].
  rewrite !bind_run. unfold set_x at 1. cbn [heap console].
  rewrite lookup_insert_eq. unfold set_y. cbn [heap console x y].
  rewrite lookup_insert_eq. cbn [x y].
  now rewrite !insert_insert_eq, ret_run.
Qed.

Lemma constructed_lookup_new (args : list value) (σ : state) :
  heap (constructed args σ) !! fresh (dom (heap σ)) =
  Some {| x := arg args 0; y := arg args 1 |}.
Proof. apply lookup_insert_eq. Qed.

(** Objects that existed before a constructor call are not touched by it. *)
Lemma constructed_lookup_old (args : list value) (σ : state) (r : ref) (p : Point) :
  heap σ !! r = Some p → heap (constructed args σ) !! r = Some p.
Proof.
  intros Hr. unfold constructed. cbn [heap].
  rewrite lookup_insert_ne; [exact Hr |].
  intros <-. rewrite fresh_ref_free in Hr. discriminate.
Qed.

Lemma draw_run (this : ref) (p : Point) (σ : state) :
  heap σ !! this = Some p →
  draw this σ =
  (Normal VUndefined,
   {| heap := heap σ;
      console := console σ ++
                 ["X: " +:+ ToString (x p) +:+ ", Y: " +:+ ToString (y p)] |}).
Proof.
  intros Hp. unfold draw, get_x, get_y.
  rewrite bind_run, Hp, bind_run, Hp, bind_run.
  unfold console_log. now rewrite draw_text, ret_run.
Qed.

Lemma draw_dangling (this : ref) (σ : state) :
  heap σ !! this = None → draw this σ = (Throw "TypeError", σ).
Proof.
  intros Hp. unfold draw, get_x. now rewrite bind_run, Hp.
Qed.

Lemma getDistance_run (this another : ref) (σ : state) :
  getDistance this another σ = (Normal VUndefined, σ).
Proof. reflexivity. Qed.

Lemma rendering_run (args : list value) (σ : state) :
  rendering args σ =
  (Normal VUndefined,
   {| heap := heap (constructed args σ);
      console := console σ ++
        ["X: " +:+ ToString (arg args 0) +:+ ", Y: " +:+ ToString (arg args 1)] |}).
Proof.
  unfold rendering. rewrite bind_run, new_Point_run.
  now rewrite (draw_run _ _ _ (constructed_lookup_new args σ)).
Qed.

Lemma distance_between_run (a b : list value) (σ : state) :
  distance_between a b σ =
  (Normal VUndefined, constructed b (constructed a σ)).
Proof.
  unfold distance_between.
  now rewrite bind_run, new_Point_run, bind_run, new_Point_run.
Qed.

Lemma self_distance_run (a : list value) (σ : state) :
  self_distance a σ = (Normal VUndefined, constructed a σ).
Proof. unfold self_distance. now rewrite bind_run, new_Point_run. Qed.


(** Number::toString on values whose rendering by a JavaScript engine is
    well known: integers, fractions, both exponent forms, the extremes. *)
Example toString_samples :
  Number.toString <$>
    [1; 2; 0; -0; 0.5; 0.1; 0.1 + 0.2; 123456789; 1e21; 1e-7; 0.000001;
     5e-324; 1.7976931348623157e308; nan; infinity; neg_infinity]%float =
  ["1"; "2"; "0"; "0"; "0.5"; "0.1"; "0.30000000000000004"; "123456789";
   "1e+21"; "1e-7"; "0.000001"; "5e-324"; "1.7976931348623157e+308"; "NaN";
   "Infinity"; "-Infinity"].
Proof. vm_compute. reflexivity. Qed.

(** The script prints the enum member and the point. *)
Example main_output : console (snd (main init)) = ["2"; "X: 1, Y: 2"].
Proof. reflexivity. Qed.

Example calculateTax_sales :
  ToString (VNumber (calculateTax 123456789 None)) = "160493825.70000002".
Proof. reflexivity. Qed.

(** ** Rendering *)

(** C3. For all numbers [a] and [b], constructing a point with [(a, b)] and
    drawing it completes normally and appends exactly one line to the
    console, the string "X: a, Y: b" with both numbers converted by
    Number::toString; for the point (1, 2) the line is "X: 1, Y: 2". *)
Theorem draw_numeric_point :
  (∀ (a b : float) (σ : state),
     ∃ σ', rendering [VNumber a; VNumber b] σ = (Normal VUndefined, σ') ∧
           console σ' =
           console σ ++
             ["X: " +:+ Number.toString a +:+ ", Y: " +:+ Number.toString b]) ∧
  console (snd (rendering [VNumber 1; VNumber 2] init)) = ["X: 1, Y: 2"].
Proof.
  split.
  - intros a b σ. rewrite rendering_run. eexists. split; reflexivity.
  - reflexivity.
Qed.

(** C6. A point constructed with no arguments has both coordinates
    [undefined], a value that is not the number zero (neither as a value nor
    under [===]); drawing it writes "X: undefined, Y: undefined", whereas a
    point constructed with two zeros is drawn as "X: 0, Y: 0". *)
Theorem draw_unset_point (σ : state) :
  ∃ p σ1 σ2,
    new_Point [] σ = (Normal p, σ1) ∧
    heap σ1 !! p = Some {| x := VUndefined; y := VUndefined |} ∧
    VUndefined ≠ VNumber 0 ∧
    strict_equals VUndefined (VNumber 0) = false ∧
    draw p σ1 = (Normal VUndefined, σ2) ∧
    console σ2 = console σ ++ ["X: undefined, Y: undefined"] ∧
    console (snd (rendering [VNumber 0; VNumber 0] σ)) =
    console σ ++ ["X: 0, Y: 0"].
Proof.
  eexists _, _, _. split; [apply new_Point_run |].
  split; [apply constructed_lookup_new |].
  split; [discriminate |]. split; [reflexivity |].
  split; [apply (draw_run _ _ _ (constructed_lookup_new [] σ)) |].
  split; [reflexivity |].
  rewrite rendering_run. reflexivity.
Qed.

(** C9. A point constructed with the single argument [a] has [x] equal to
    [a] and [y] [undefined]; drawing it writes "X: a, Y: undefined". *)
Theorem draw_partial_point (a : float) (σ : state) :
  ∃ p σ1 σ2,
    new_Point [VNumber a] σ = (Normal p, σ1) ∧
    heap σ1 !! p = Some {| x := VNumber a; y := VUndefined |} ∧
    draw p σ1 = (Normal VUndefined, σ2) ∧
    console σ2 = console σ ++ ["X: " +:+ Number.toString a +:+ ", Y: undefined"].
Proof.
  eexists _, _, _. split; [apply new_Point_run |].
  split; [apply constructed_lookup_new |].
  split; [apply (draw_run _ _ _ (constructed_lookup_new [VNumber a] σ)) |].
  reflexivity.
Qed.

(** C7. Construction with any list of numeric arguments (none, one, two, or
    more) completes normally in every state, and drawing the point just
    constructed completes normally as well: neither can throw. *)
Theorem construction_and_draw_total (nums : list float) (σ : state) :
  ∃ p σ1 σ2,
    new_Point (VNumber <$> nums) σ = (Normal p, σ1) ∧
    draw p σ1 = (Normal VUndefined, σ2).
Proof.
  eexists _, _, _. split; [apply new_Point_run |].
  apply (draw_run _ _ _ (constructed_lookup_new _ σ)).
Qed.

(** C8. Neither method writes to an object: [draw] leaves the whole heap as
    it was (so the coordinates of every point, the receiver included, are
    unchanged), and [getDistance] leaves the whole state as it was, heap and
    console, for any receiver and any argument. *)
Theorem methods_preserve_points (this another : ref) (σ : state) :
  heap (snd (draw this σ)) = heap σ ∧
  (∀ r : ref, heap (snd (draw this σ)) !! r = heap σ !! r) ∧
  snd (getDistance this another σ) = σ.
Proof.
  assert (Hdraw : heap (snd (draw this σ)) = heap σ).
  { destruct (heap σ !! this) as [p|] eqn:Hp.
    - now rewrite (draw_run _ _ _ Hp).
    - now rewrite (draw_dangling _ _ Hp). }
  split; [exact Hdraw |]. split; [now rewrite Hdraw |].
  now rewrite getDistance_run.
Qed.

(** ** calculateTax *)

(** C10. For every income, [calculateTax income taxYear] is [income * 1.2]
    when [taxYear < 2022] and [income * 1.3] otherwise, and with the tax
    year omitted (the default 2022 applies) it is [income * 1.3]. *)
Theorem calculateTax_rates (income : float) :
  (∀ taxYear : float,
     calculateTax income (Some taxYear) =
     if (taxYear <? 2022)%float then (income * 1.2)%float
     else (income * 1.3)%float) ∧
  calculateTax income None = (income * 1.3)%float.
Proof.
  split.
  - intros taxYear. reflexivity.
  - reflexivity.
Qed.

(** ** getDistance *)

(** C1, as claimed, fails: the distance asked for between (1, 2) and (4, 6)
    is 5, and the call does not complete with that number. *)
Lemma getDistance_euclidean_counterexample :
  spec_distance 1 2 4 6 = 5%float ∧
  fst (distance_between [VNumber 1; VNumber 2] [VNumber 4; VNumber 6] init)
  ≠ Normal (VNumber (spec_distance 1 2 4 6)).
Proof.
  split; [reflexivity |].
  rewrite distance_between_run. discriminate.
Qed.

(** C1, amended. For all fully-specified points (x1, y1) and (x2, y2),
    [getDistance] completes with [undefined] and with no number at all: no
    distance is computed, and for (1, 2) and (4, 6) the result is
    [undefined], not 5. *)
Theorem getDistance_undefined_for_numbers (x1 y1 x2 y2 : float) (σ : state) :
  fst (distance_between [VNumber x1; VNumber y1] [VNumber x2; VNumber y2] σ)
  = Normal VUndefined ∧
  ∀ d : float,
    fst (distance_between [VNumber x1; VNumber y1] [VNumber x2; VNumber y2] σ)
    ≠ Normal (VNumber d).
Proof.
  rewrite distance_between_run. cbn [fst].
  split; [reflexivity |]. intros d Hd. discriminate Hd.
Qed.





(** C5, as claimed, fails: for the point (1, 2) the distance to itself is
    not a value equal to zero. *)
Lemma self_distance_zero_counterexample :
  ¬ ∃ d : value,
      fst (self_distance [VNumber 1; VNumber 2] init) = Normal d ∧
      strict_equals d (VNumber 0) = true.
Proof.
  intros [d [Hd Heq]]. rewrite self_distance_run in Hd.
  injection Hd as <-. discriminate.
Qed.

(** C5, amended. For every fully-specified point [p] of the heap,
    [p.getDistance(p)] completes with [undefined], which is not equal to
    zero. *)
Theorem self_distance_undefined (σ : state) (r : ref) (p : Point) :
  heap σ !! r = Some p →
  fully_specified p = true →
  ∃ d : value,
    fst (getDistance r r σ) = Normal d ∧
    d = VUndefined ∧
    strict_equals d (VNumber 0) = false.
Proof.
  intros _ _. exists VUndefined. rewrite getDistance_run. repeat split.
Qed.

Lemma self_distance_undefined_witness :
  heap two_points !! 1%positive = Some {| x := VNumber 1; y := VNumber 2 |} ∧
  ∃ d : value,
    fst (getDistance 1%positive 1%positive two_points) = Normal d ∧
    d = VUndefined ∧
    strict_equals d (VNumber 0) = false.
Proof.
  split; [reflexivity |].
  apply (self_distance_undefined two_points 1%positive
           {| x := VNumber 1; y := VNumber 2 |}); reflexivity.
Defined.

(** ** Further properties of the class and of the script *)

(** X1. A constructor call returns a reference that designated no object
    before, stores the first two arguments there (a missing one as
    [undefined]), leaves every other object and the console as they were,
    and makes the heap exactly one object larger. *)
Theorem new_Point_allocates_fresh (args : list value) (σ : state) :
  ∃ r σ',
    new_Point args σ = (Normal r, σ') ∧
    heap σ !! r = None ∧
    heap σ' !! r = Some {| x := arg args 0; y := arg args 1 |} ∧
    (∀ r' : ref, r' ≠ r → heap σ' !! r' = heap σ !! r') ∧
    dom (heap σ') = {[r]} ∪ dom (heap σ) ∧
    console σ' = console σ.
Proof.
  exists (fresh (dom (heap σ))), (constructed args σ).
  split; [apply new_Point_run |].
  split; [apply fresh_ref_free |].
  split; [apply constructed_lookup_new |].
  split; [| split; [apply dom_insert_L | reflexivity]].
  intros r' Hne. unfold constructed. cbn [heap].
  now rewrite lookup_insert_ne.
Qed.

(** X2. Two points constructed one after the other are separate objects:
    drawing the first and then the second writes the line of the first
    point's own arguments followed by the line of the second's, so the
    second construction did not disturb the first point. *)
Theorem draw_both_lines (a b : list value) (σ : state) :
  ∃ σ',
    draw_both a b σ = (Normal VUndefined, σ') ∧
    console σ' =
    console σ ++ [drawn {| x := arg a 0; y := arg a 1 |};
                  drawn {| x := arg b 0; y := arg b 1 |}].
Proof.
  unfold draw_both.
  rewrite bind_run, new_Point_run, bind_run, new_Point_run.
  pose proof (constructed_lookup_old b _ _ _ (constructed_lookup_new a σ)) as H1.
  rewrite bind_run, (draw_run _ _ _ H1).
  pose proof (constructed_lookup_new b (constructed a σ)) as H2.
  rewrite (draw_run _ {| x := arg b 0; y := arg b 1 |}); [| exact H2].
  eexists. split; [reflexivity |].
  cbn [console constructed x y]. unfold drawn. cbn [x y].
  now rewrite <- app_assoc.
Qed.

(** X3. Drawing a live point, asking it for a distance and drawing it again
    completes normally and writes the same line twice: neither [draw] nor
    [getDistance] changes what the next [draw] shows, and the heap is as
    before. *)
Theorem draw_around_distance_repeats
    (this another : ref) (p : Point) (σ : state) :
  heap σ !! this = Some p →
  draw_around_distance this another σ =
  (Normal VUndefined,
   {| heap := heap σ; console := console σ ++ [drawn p; drawn p] |}).
Proof.
  intros Hp. unfold draw_around_distance.
  rewrite bind_run, (draw_run _ _ _ Hp), bind_run, getDistance_run.
  rewrite (draw_run this p); [| exact Hp].
  cbn [heap console]. unfold drawn. now rewrite <- app_assoc.
Qed.

Lemma draw_around_distance_repeats_witness :
  heap two_points !! 1%positive = Some {| x := VNumber 1; y := VNumber 2 |} ∧
  draw_around_distance 1%positive 2%positive two_points =
  (Normal VUndefined,
   {| heap := heap two_points;
      console := console two_points ++
        [drawn {| x := VNumber 1; y := VNumber 2 |};
         drawn {| x := VNumber 1; y := VNumber 2 |}] |}).
Proof.
  split; [reflexivity |].
  apply (draw_around_distance_repeats 1%positive 2%positive
           {| x := VNumber 1; y := VNumber 2 |} two_points).
  reflexivity.
Defined.

(** X4. The console only grows under the operations of [Point]: every one
    of them keeps the entries already written; a constructor call and
    [getDistance] call console.log not at all, and [draw] calls it once,
    adding one entry, or not at all exactly when it throws. *)
Theorem console_only_grows (args : list value) (this another : ref)
    (σ : state) :
  console (snd (new_Point args σ)) = console σ ∧
  console (snd (getDistance this another σ)) = console σ ∧
  (∃ added : list string,
     console (snd (draw this σ)) = console σ ++ added ∧
     (length added ≤ 1)%nat ∧
     (length added = 0%nat ↔ ∃ e, fst (draw this σ) = Throw e)).
Proof.
  split; [now rewrite new_Point_run |].
  split; [reflexivity |].
  destruct (heap σ !! this) as [p|] eqn:Hp.
  - rewrite (draw_run _ _ _ Hp). eexists [_]. cbn [fst snd console length].
    split; [reflexivity |]. split; [lia |].
    split; [discriminate | intros [e He]; discriminate He].
  - rewrite (draw_dangling _ _ Hp). exists []. cbn [fst snd length].
    split; [now rewrite app_nil_r |]. split; [lia |].
    split; [intros _; now eexists | reflexivity].
Qed.

(** X5. From any state the script completes normally, writes the two lines
    "2" (the enum member, as a number) and "X: 1, Y: 2" in this order, and
    leaves exactly one new object, the point (1, 2). *)
Theorem main_effect (σ : state) :
  ∃ point σ',
    main σ = (Normal VUndefined, σ') ∧
    console σ' = console σ ++ ["2"; "X: 1, Y: 2"] ∧
    heap σ !! point = None ∧
    heap σ' = <[point := {| x := VNumber 1; y := VNumber 2 |}]> (heap σ).
Proof.
  exists (fresh (dom (heap σ))). eexists.
  unfold main. rewrite bind_run. unfold console_log at 1.
  rewrite bind_run, new_Point_run.
  rewrite (draw_run _ _ _ (constructed_lookup_new _ _)).
  split; [reflexivity |]. cbn [heap console constructed].
  split; [now rewrite <- app_assoc |].
  split; [apply fresh_ref_free | reflexivity].
Qed.

(** X6. The members of [Size] are told apart by their values: two members
    have [===]-equal values exactly when they are the same member, and
    console.log writes a member as its number, "1", "2" or "3". *)
Theorem Size_values_distinct (a b : Size) :
  (strict_equals (VNumber (Size_value a)) (VNumber (Size_value b)) = true
   ↔ a = b) ∧
  display (VNumber (Size_value a)) =
  match a with
  | Small => "1"
  | Medium => "2"
  | Large => "3"
  end.
Proof.
  split.
  - destruct a, b; split; intros H; try reflexivity; discriminate H.
  - now destruct a.
Qed.

(** ** Further properties of calculateTax

    These hold for every binary64 income, so they go through the
    specification of the primitive operations on [spec_float]. *)

Lemma Prim2SF_injective (a b : float) : Prim2SF a = Prim2SF b → a = b.
Proof.
  intros H. rewrite <- (SF2Prim_Prim2SF a), <- (SF2Prim_Prim2SF b).
  now rewrite H.
Qed.

Lemma SFltb_not_SFleb (a b : spec_float) :
  SFltb a b = true → SFleb b a = false.
Proof.
  unfold SFltb, SFleb.
  destruct a as [sa|sa| |sa ma ea], b as [sb|sb| |sb mb eb]; cbn;
    try destruct sa; try destruct sb; cbn; try discriminate; try reflexivity.
  all: rewrite (Z.compare_antisym ea eb);
    destruct (ea ?= eb); cbn; try discriminate; try reflexivity.
  all: change (Pos.compare_cont Eq mb ma) with (Pos.compare mb ma);
    change (Pos.compare_cont Eq ma mb) with (Pos.compare ma mb);
    rewrite (Pos.compare_antisym ma mb);
    destruct (Pos.compare ma mb); cbn; try discriminate; reflexivity.
Qed.

(** The sign of a rounded result is the sign it was given. *)
Lemma binary_round_aux_negb (s : bool) (m e : Z) (l : location) :
  binary_round_aux prec emax (negb s) m e l =
  SFopp (binary_round_aux prec emax s m e l).
Proof.
  unfold binary_round_aux.
  destruct (shr_fexp prec emax m e l) as [mrs e'].
  destruct (shr_fexp prec emax _ e' loc_Exact) as [mrs' e''].
  destruct (shr_m mrs'); [reflexivity | | reflexivity].
  now destruct (e'' <=? emax - prec).
Qed.

Lemma SFmul_opp_l (a b : spec_float) :
  SFmul prec emax (SFopp a) b = SFopp (SFmul prec emax a b).
Proof.
  destruct a as [sa|sa| |sa ma ea], b as [sb|sb| |sb mb eb]; cbn [SFmul SFopp];
    try replace (xorb (negb sa) sb) with (negb (xorb sa sb))
      by (now destruct sa, sb);
    try reflexivity.
  apply binary_round_aux_negb.
Qed.

(** Shifting and rounding a non-negative mantissa keeps it non-negative. *)
Lemma shr_1_nonneg (r : shr_record) : 0 <= shr_m r → 0 <= shr_m (shr_1 r).
Proof.
  destruct r as [m r s]. cbn [shr_m]. intros Hm.
  destruct m as [|[p|p|]|p]; cbn; lia.
Qed.

Lemma iter_pos_shr_1_nonneg (n : positive) (r : shr_record) :
  0 <= shr_m r → 0 <= shr_m (SpecFloat.iter_pos shr_1 n r).
Proof.
  revert r. induction n as [n IH|n IH|]; intros r Hr; cbn [SpecFloat.iter_pos].
  - apply IH, IH, shr_1_nonneg, Hr.
  - apply IH, IH, Hr.
  - apply shr_1_nonneg, Hr.
Qed.

Lemma shr_fexp_nonneg (m e : Z) (l : location) :
  0 <= m → 0 <= shr_m (fst (shr_fexp prec emax m e l)).
Proof.
  intros Hm. unfold shr_fexp, shr.
  assert (H0 : 0 <= shr_m (shr_record_of_loc m l)).
  { destruct l as [|[]]; exact Hm. }
  destruct (fexp prec emax (Zdigits2 m + e) - e); cbn [fst]; try exact H0.
  apply iter_pos_shr_1_nonneg, H0.
Qed.

Lemma round_nearest_even_nonneg (m : Z) (l : location) :
  0 <= m → 0 <= round_nearest_even m l.
Proof.
  intros Hm. destruct l as [|[]]; cbn; try lia.
  destruct (Z.even m); lia.
Qed.

Lemma binary_round_aux_nonneg (m e : Z) (l : location) :
  0 <= m →
  SFleb (S754_zero false) (binary_round_aux prec emax false m e l) = true.
Proof.
  intros Hm. unfold binary_round_aux.
  pose proof (shr_fexp_nonneg m e l Hm) as H1.
  destruct (shr_fexp prec emax m e l) as [mrs e']. cbn [fst] in H1.
  pose proof (shr_fexp_nonneg _ e' loc_Exact
                (round_nearest_even_nonneg _ (loc_of_shr_record mrs) H1)) as H2.
  destruct (shr_fexp prec emax _ e' loc_Exact) as [mrs' e'']. cbn [fst] in H2.
  destruct (shr_m mrs'); [reflexivity | | lia].
  now destruct (e'' <=? emax - prec).
Qed.

(** A non-negative number times a positive finite one is non-negative, and
    in particular not NaN. *)
Lemma SFmul_nonneg (a : spec_float) (mb : positive) (eb : Z) :
  SFleb (S754_zero false) a = true →
  SFleb (S754_zero false) (SFmul prec emax a (S754_finite false mb eb)) = true.
Proof.
  destruct a as [sa|sa| |sa ma ea]; cbn [SFmul]; try discriminate.
  - now destruct sa.
  - now destruct sa.
  - destruct sa; [discriminate |]. intros _. cbn [xorb].
    apply binary_round_aux_nonneg. lia.
Qed.

Lemma mul_rate_nonneg (income rate : float) (m : positive) (e : Z) :
  Prim2SF rate = S754_finite false m e →
  (0 <=? income)%float = true →
  (0 <=? income * rate)%float = true.
Proof.
  intros Hrate. rewrite !leb_spec, mul_spec, Hrate.
  change (Prim2SF 0) with (S754_zero false). apply SFmul_nonneg.
Qed.

(** X7. Every tax year from 2022 on is taxed as the default year: when
    [2022 <= taxYear], the result is the one of the call with the tax year
    omitted. *)
Theorem calculateTax_from_2022 (income taxYear : float) :
  (2022 <=? taxYear)%float = true →
  calculateTax income (Some taxYear) = calculateTax income None.
Proof.
  intros Hle. unfold calculateTax.
  change (default 2022%float (Some taxYear)) with taxYear.
  destruct (taxYear <? 2022)%float eqn:Hlt.
  - rewrite ltb_spec in Hlt. apply SFltb_not_SFleb in Hlt.
    rewrite leb_spec in Hle. congruence.
  - reflexivity.
Qed.

Lemma calculateTax_from_2022_witness :
  (2022 <=? 2023)%float = true ∧
  calculateTax 100 (Some 2023%float) = calculateTax 100 None.
Proof.
  split; [reflexivity |].
  apply (calculateTax_from_2022 100 2023). reflexivity.
Defined.

(** X8. Negating the income negates the tax, in every tax year and with the
    tax year omitted: no rounding differs between the two signs. *)
Theorem calculateTax_opp (income : float) (taxYear : option float) :
  calculateTax (- income) taxYear = (- calculateTax income taxYear)%float.
Proof.
  unfold calculateTax.
  destruct (default 2022%float taxYear <? 2022)%float;
    apply Prim2SF_injective;
    rewrite opp_spec, !mul_spec, opp_spec; apply SFmul_opp_l.
Qed.

(** X9. A non-negative income gives a non-negative tax, in every tax year
    and with the tax year omitted; in particular the result is not NaN. *)
Theorem calculateTax_nonneg (income : float) (taxYear : option float) :
  (0 <=? income)%float = true →
  (0 <=? calculateTax income taxYear)%float = true.
Proof.
  intros Hincome. unfold calculateTax.
  destruct (default 2022%float taxYear <? 2022)%float.
  - eapply mul_rate_nonneg; [vm_compute; reflexivity | exact Hincome].
  - eapply mul_rate_nonneg; [vm_compute; reflexivity | exact Hincome].
Qed.

Lemma calculateTax_nonneg_witness :
  (0 <=? 100)%float = true ∧
  (0 <=? calculateTax 100 (Some 2021%float))%float = true.
Proof.
  split; [reflexivity |].
  apply (calculateTax_nonneg 100 (Some 2021%float)). reflexivity.
Defined.
